(** * s01_recon2D.py: the 2D TVR-DART example script

    A shallow embedding of [src/s01_recon2D.py], the straight-line script
    that loads a sinogram, corrects its intensity offset, configures the
    ASTRA geometry, runs SIRT, estimates the TVR-DART parameters,
    reconstructs, rescales, plots and saves.

    Modelling decisions.
    - float64 values are exact rationals ([Q]); rounding, [inf] and [nan]
      are outside the model.  Equality of computed values is [Qeq] where
      the computation goes through a division.  A division by zero gives
      [inf] or [nan] in numpy and has no counterpart here: what is said of
      the elements of a quotient is said for a divisor that is not zero.
    - An [ndarray] is numpy's pair of a shape and a flat row-major buffer.
    - The script runs in a state and exception monad over a [World] (the
      process arguments and environment, the file system, ASTRA's projector
      manager) and emits a trace of events: every call that leaves the
      script, every exception raised, and a marker at the two ends of each
      block of the script.
    - astra's projector initialisation, SIRT, TVRDART and pylab are the
      opaque collaborators of the script: they are the fields of a record
      [Collaborators] over which every theorem is quantified.  Within one
      run they are functions of their arguments: the record stands for the
      libraries as they behave for the command line and the environment of
      that run, which they may read themselves. *)

From Stdlib Require Import QArith Qminmax Lqa Lia List.
From stdpp Require Import base gmap strings list.

Local Open Scope string_scope.
Local Open Scope list_scope.

(** ** Exceptions and results *)

Inductive exn : Type :=
| FileNotFoundError (path : string)
| ValueError (msg : string)
| RuntimeError (msg : string)
| ModuleNotFoundError (name : string)
| OSError (msg : string)
| LibraryError (lib msg : string).

Inductive result (A : Type) : Type :=
| Ok (a : A)
| Raise (e : exn).

Arguments Ok {A} a.
Arguments Raise {A} e.

(** ** numpy arrays *)

Record ndarray : Type := NdArray {
  shape : list nat;
  flat : list Q
}.

(** [a.size] *)
Definition np_size (a : ndarray) : nat := length (flat a).


(** Two arrays of one shape whose elements are equal rationals. *)
Definition arr_eq (a b : ndarray) : Prop :=
  shape a = shape b /\ Forall2 Qeq (flat a) (flat b).

(** [[n, m] = a.shape]: unpacking a shape that is not of length two raises. *)
Definition unpack_shape2 (a : ndarray) : result (nat * nat) :=
  match shape a with
  | [n; m] => Ok (n, m)
  | _ :: _ :: _ :: _ => Raise (ValueError "too many values to unpack (expected 2)")
  | _ => Raise (ValueError "not enough values to unpack (expected 2)")
  end.

(** [y[-1] = v] on a buffer. *)
Definition set_last (l : list Q) (v : Q) : list Q :=
  match l with
  | [] => []
  | _ :: _ => removelast l ++ [v]
  end.

(** [np.linspace(start, stop, num, True)]: [arange(num) * step + start] with
    [step = (stop - start) / (num - 1)], the last element then overwritten
    by [stop] when [num > 1]; for [num = 1] the single element is
    [0 * (stop - start) + start]. *)
Definition np_linspace (start stop : Q) (num : nat) : ndarray :=
  let div := (num - 1)%nat in
  let delta := (stop - start)%Q in
  let scale := if (0 <? div)%nat then (delta / inject_Z (Z.of_nat div))%Q else delta in
  let y := map (fun i : nat => (inject_Z (Z.of_nat i) * scale + start)%Q) (seq 0 num) in
  NdArray [num] (if (1 <? num)%nat then set_last y stop else y).

(** [a - c], [a * c], [a / c] with a scalar [c], element by element.  For
    [c] zero the elements of [np_div_scalar a c] are those of [Q]'s division
    and not numpy's [inf] and [nan]. *)
Definition np_sub_scalar (a : ndarray) (c : Q) : ndarray :=
  NdArray (shape a) (map (fun x => (x - c)%Q) (flat a)).

Definition np_mul_scalar (a : ndarray) (c : Q) : ndarray :=
  NdArray (shape a) (map (fun x => (x * c)%Q) (flat a)).

Definition np_scalar_mul (c : Q) (a : ndarray) : ndarray :=
  NdArray (shape a) (map (fun x => (c * x)%Q) (flat a)).

Definition np_div_scalar (a : ndarray) (c : Q) : ndarray :=
  NdArray (shape a) (map (fun x => (x / c)%Q) (flat a)).

(** [np.ones(n)] *)
Definition np_ones (n : nat) : ndarray := NdArray [n] (repeat 1%Q n).

(** [np.max(a)]: the maximum of the flattened array; a zero-size array
    raises. *)
Definition np_max (a : ndarray) : result Q :=
  match flat a with
  | [] => Raise (ValueError "zero-size array to reduction operation maximum which has no identity")
  | x :: xs => Ok (fold_left Qmax xs x)
  end.

(** [a.reshape(n)]: the same buffer seen as one dimension of length [n]. *)
Definition np_reshape1 (a : ndarray) (n : nat) : result ndarray :=
  if Nat.eqb (np_size a) n then Ok (NdArray [n] (flat a))
  else Raise (ValueError "cannot reshape array").

(** [np.pi], the float64 nearest to pi, as the rational it is. *)
Definition np_pi : Q := 884279719003555 # 281474976710656.

(** The grid point [i] of [n >= 2] points from [start] to [stop]. *)
Definition grid (start stop : Q) (n i : nat) : Q :=
  (inject_Z (Z.of_nat i) * ((stop - start) / inject_Z (Z.of_nat (n - 1))) + start)%Q.

(** ** ASTRA objects *)

(** The dictionary built by [astra.create_proj_geom('parallel', w, n, angles)]. *)
Record proj_geom : Type := ProjGeom {
  pg_type : string;
  DetectorWidth : Q;
  DetectorCount : nat;
  ProjectionAngles : ndarray
}.

(** The dictionary built by [astra.create_vol_geom(Y, X)]: [Y] rows and [X]
    columns. *)
Record vol_geom : Type := VolGeom {
  GridRowCount : nat;
  GridColCount : nat
}.

(** The shape of a volume of that geometry. *)
Definition vol_shape (vg : vol_geom) : list nat := [GridRowCount vg; GridColCount vg].

(** An object of ASTRA's projector manager. *)
Record projector : Type := Projector {
  pj_type : string;
  pj_proj_geom : proj_geom;
  pj_vol_geom : vol_geom
}.

(** [astra.OpTomo(proj_id)]: the operator remembers the handle and the
    volume geometry it read from the manager.  The projection geometry it
    reads back (angles in single precision, reduced to one turn) is not
    modelled. *)
Record OpTomo : Type := MkOpTomo {
  op_proj_id : nat;
  op_vol_geom : vol_geom
}.

(** ** Events *)

(** The blocks of the script, in the words of its comments. *)
Inductive stage : Type :=
| ReadData
| OffsetCorrection
| Geometry
| InitialReconstruction
| ParameterEstimation
| FinalReconstruction
| Rescale
| Plots
| SaveResults.

Inductive plot_call : Type :=
| pl_gray
| pl_figure (n : nat)
| pl_imshow (a : ndarray)
| pl_colorbar
| pl_title (s : string)
| pl_show.

(** A call that leaves the script, with its arguments. *)
Inductive call : Type :=
| c_import (name : string)
| c_Path_home
| c_np_load (path : string)
| c_print (s : string)
| c_create_proj_geom (ty : string) (w : Q) (n : nat) (angles : ndarray)
| c_create_vol_geom (ny nx : nat)
| c_create_projector (ty : string) (pg : proj_geom) (vg : vol_geom)
| c_projector_delete (id : nat)
| c_OpTomo (id : nat)
| c_SIRT_recon (data : ndarray) (iters : nat) (pg : proj_geom) (vg : vol_geom) (ty : string)
| c_gv2param (gv K : ndarray)
| c_joint (W : OpTomo) (p recsirt param0 : ndarray) (lamb : Z)
| c_param2gv (param : ndarray)
| c_recon (W : OpTomo) (p recsirt param : ndarray) (lamb : Z) (Niter : nat)
| c_pylab (pc : plot_call)
| c_np_save (path : string) (a : ndarray).

Inductive event : Type :=
| Begin (s : stage)
| End (s : stage)
| Call (c : call)
| Raised (e : exn).

(** ** The world the script runs in *)

Record World : Type := MkWorld {
  argv : list string;                       (* sys.argv *)
  environ : gmap string string;             (* os.environ *)
  pw_dir : option string;                   (* home directory of the password database *)
  cwd : string;                             (* working directory *)
  fs : gmap string ndarray;                 (* the .npy files, by path *)
  fs_denied : gset string;                  (* paths that cannot be opened for writing *)
  astra_projectors : gmap nat projector;    (* ASTRA's projector manager *)
  astra_next_id : nat                       (* the next handle it gives out *)
}.

(** ** The opaque collaborators *)

Record Collaborators : Type := MkCollaborators {
  (* None: the module is found and its top level runs through *)
  import_module : string -> option exn;
  (* None: the projector initialises *)
  astra_projector_init : string -> proj_geom -> vol_geom -> option exn;
  sirt_recon : ndarray -> nat -> proj_geom -> vol_geom -> string -> result ndarray;
  tvr_gv2param : ndarray -> ndarray -> result ndarray;
  tvr_joint : OpTomo -> ndarray -> ndarray -> ndarray -> Z -> result (ndarray * ndarray);
  tvr_param2gv : ndarray -> result (ndarray * ndarray);
  tvr_recon : OpTomo -> ndarray -> ndarray -> ndarray -> Z -> nat -> result (ndarray * ndarray);
  (* None: the plotting call returns *)
  pylab_call : plot_call -> option exn
}.

(** ** The monad: state, exceptions and a trace *)

Record Outcome (A : Type) : Type := MkOutcome {
  events : list event;
  final : World;
  value : result A
}.

Arguments MkOutcome {A} events final value.
Arguments events {A} o.
Arguments final {A} o.
Arguments value {A} o.

Definition M (A : Type) : Type := World -> Outcome A.

Definition ret {A} (a : A) : M A := fun w => MkOutcome [] w (Ok a).

(** The events [t] followed by the outcome [o]. *)
Definition prepend {A} (t : list event) (o : Outcome A) : Outcome A :=
  match o with
  | MkOutcome t' w r => MkOutcome (t ++ t') w r
  end.

(** Sequencing: an exception of the first computation is the exception of
    the whole, and the second computation does not run.  There is no
    handler construct. *)
Definition bind {A B} (m : M A) (f : A -> M B) : M B := fun w =>
  match m w with
  | MkOutcome t w' (Ok a) => prepend t (f a w')
  | MkOutcome t w' (Raise e) => MkOutcome t w' (Raise e)
  end.

Declare Scope script_scope.
Delimit Scope script_scope with script.
Notation "x <- m ;; k" := (bind m (fun x => k))
  (at level 100, m at next level, right associativity) : script_scope.
Notation "m ;; k" := (bind m (fun _ => k))
  (at level 100, right associativity) : script_scope.
Local Open Scope script_scope.

(** [raise e] when nothing catches it. *)
Definition raise {A} (e : exn) : M A := fun w => MkOutcome [Raised e] w (Raise e).

(** A numpy operation of the script that returns or raises. *)
Definition lift {A} (r : result A) : M A :=
  match r with
  | Ok a => ret a
  | Raise e => raise e
  end.

Definition emit (ev : event) : M unit := fun w => MkOutcome [ev] w (Ok tt).

(** A call whose only modelled outcome is to return or to raise. *)
Definition effect (c : call) (fault : option exn) : M unit :=
  emit (Call c) ;;
  match fault with
  | None => ret tt
  | Some e => raise e
  end.

(** A call to an opaque function. *)
Definition invoke {A} (c : call) (r : result A) : M A :=
  emit (Call c) ;; lift r.

Definition get_world : M World := fun w => MkOutcome [] w (Ok w).
Definition put_world (w' : World) : M unit := fun _ => MkOutcome [] w' (Ok tt).

Definition set_fs (w : World) (f : gmap string ndarray) : World :=
  MkWorld (argv w) (environ w) (pw_dir w) (cwd w) f (fs_denied w)
          (astra_projectors w) (astra_next_id w).

Definition set_projectors (w : World) (ps : gmap nat projector) (next : nat) : World :=
  MkWorld (argv w) (environ w) (pw_dir w) (cwd w) (fs w) (fs_denied w) ps next.

(** ** The Python and numpy calls of the script *)

(** [Path.home()]: the value of HOME when it is set, the home directory of
    the password database otherwise. *)
Definition home_dir (w : World) : option string :=
  match environ w !! "HOME" with
  | Some h => Some h
  | None => pw_dir w
  end.

Definition Path_home : M string :=
  emit (Call c_Path_home) ;;
  w <- get_world ;;
  match home_dir w with
  | Some h => ret h
  | None => raise (RuntimeError "Could not determine home directory.")
  end.

(** [p.joinpath(parts...)] on the string of the path. *)
Definition joinpath (p : string) (parts : list string) : string :=
  fold_left (fun acc x => acc +:+ "/" +:+ x) parts p.

(** [np.load(path)] *)
Definition np_load (path : string) : M ndarray :=
  emit (Call (c_np_load path)) ;;
  w <- get_world ;;
  match fs w !! path with
  | Some a => ret a
  | None => raise (FileNotFoundError path)
  end.

Definition print (s : string) : M unit := emit (Call (c_print s)).

(** A relative file name is taken from the working directory. *)
Definition resolve (w : World) (name : string) : string := cwd w +:+ "/" +:+ name.

(** [np.save(name, a)] *)
Definition np_save (name : string) (a : ndarray) : M unit :=
  emit (Call (c_np_save name a)) ;;
  w <- get_world ;;
  if decide (resolve w name ∈ fs_denied w)
  then raise (OSError "Permission denied")
  else put_world (set_fs w (<[resolve w name := a]> (fs w))).

(** ** The ASTRA calls *)

Definition astra_create_proj_geom (ty : string) (dw : Q) (n : nat) (angles : ndarray)
  : M proj_geom :=
  emit (Call (c_create_proj_geom ty dw n angles)) ;;
  ret (ProjGeom ty dw n angles).

Definition astra_create_vol_geom (ny nx : nat) : M vol_geom :=
  emit (Call (c_create_vol_geom ny nx)) ;;
  ret (VolGeom ny nx).

(** [astra.projector.delete(id)]; the script never calls it. *)
Definition astra_projector_delete (id : nat) : M unit :=
  emit (Call (c_projector_delete id)) ;;
  w <- get_world ;;
  put_world (set_projectors w (delete id (astra_projectors w)) (astra_next_id w)).

(** [astra.OpTomo(id)] reads the geometry of the projector [id]. *)
Definition astra_OpTomo (id : nat) : M OpTomo :=
  emit (Call (c_OpTomo id)) ;;
  w <- get_world ;;
  match astra_projectors w !! id with
  | Some pj => ret (MkOpTomo id (pj_vol_geom pj))
  | None => raise (LibraryError "astra" "no such projector")
  end.

(** What the interpreter's exit does to the world: the objects of the
    process are gone, the files stay. *)
Definition process_exit (w : World) : World := set_projectors w ∅ 0.

(** ** The module namespace when the script ends *)

Record Globals : Type := MkGlobals {
  g_data : ndarray;
  g_Nan : nat;
  g_Ndetx : nat;
  g_angles : ndarray;
  g_offset : Q;
  g_Nx : nat;
  g_Nz : nat;
  g_proj_geom : proj_geom;
  g_vol_geom : vol_geom;
  g_proj_id : nat;
  g_W : OpTomo;
  g_Ngv : nat;
  g_K : ndarray;
  g_lamb : Z;
  g_Niter : nat;
  g_recsirt : ndarray;
  g_sf : Q;
  g_p : ndarray;
  g_gv : ndarray;
  g_param0 : ndarray;
  g_Segrec : ndarray;
  g_param_esti : ndarray;
  g_rec : ndarray
}.

(** ** The script *)

Section Script.

Variable lib : Collaborators.

Definition import_ (name : string) : M unit :=
  effect (c_import name) (import_module lib name).

(** [astra.create_projector(ty, pg, vg)]: when the projector initialises,
    the manager stores it under its next handle and returns the handle. *)
Definition astra_create_projector (ty : string) (pg : proj_geom) (vg : vol_geom) : M nat :=
  effect (c_create_projector ty pg vg) (astra_projector_init lib ty pg vg) ;;
  w <- get_world ;;
  put_world (set_projectors w (<[astra_next_id w := Projector ty pg vg]> (astra_projectors w))
                            (S (astra_next_id w))) ;;
  ret (astra_next_id w).

Definition SIRT_recon (data : ndarray) (iters : nat) (pg : proj_geom) (vg : vol_geom)
    (ty : string) : M ndarray :=
  invoke (c_SIRT_recon data iters pg vg ty) (sirt_recon lib data iters pg vg ty).

Definition TVRDART_gv2param (gv K : ndarray) : M ndarray :=
  invoke (c_gv2param gv K) (tvr_gv2param lib gv K).

Definition TVRDART_joint (W : OpTomo) (p recsirt param0 : ndarray) (lamb : Z)
  : M (ndarray * ndarray) :=
  invoke (c_joint W p recsirt param0 lamb) (tvr_joint lib W p recsirt param0 lamb).

Definition TVRDART_param2gv (param : ndarray) : M (ndarray * ndarray) :=
  invoke (c_param2gv param) (tvr_param2gv lib param).

Definition TVRDART_recon (W : OpTomo) (p recsirt param : ndarray) (lamb : Z) (Niter : nat)
  : M (ndarray * ndarray) :=
  invoke (c_recon W p recsirt param lamb Niter) (tvr_recon lib W p recsirt param lamb Niter).

Definition pylab_ (pc : plot_call) : M unit := effect (c_pylab pc) (pylab_call lib pc).

Definition script : M Globals :=
  (* 46-49 *)
  import_ "TVRDART" ;;
  import_ "astra" ;;
  import_ "numpy" ;;
  import_ "pathlib" ;;
  (* 51-56  Read data *)
  emit (Begin ReadData) ;;
  home <- Path_home ;;
  data <- np_load (joinpath home ["Documents"; "GitHub"; "ContributedTools"; "nanotube2d.npy"]) ;;
  shp <- lift (unpack_shape2 data) ;;
  let '(Nan, Ndetx) := shp in
  let angles := np_mul_scalar (np_linspace (-50) 50 Nan) (np_pi / 180) in
  emit (End ReadData) ;;
  (* 58-61  Intensity-offset correction *)
  emit (Begin OffsetCorrection) ;;
  print "Intensity-offset correction..." ;;
  let offset := (- (893 # 100000))%Q in
  let data := np_sub_scalar data offset in
  emit (End OffsetCorrection) ;;
  (* 63-71  Setting reconstruction geometry *)
  emit (Begin Geometry) ;;
  print "Configure projection and volume geometry..." ;;
  let Nx := Ndetx in
  let Nz := Ndetx in
  proj_geom <- astra_create_proj_geom "parallel" 1 Ndetx angles ;;
  vol_geom <- astra_create_vol_geom Nz Nx ;;
  proj_id <- astra_create_projector "cuda" proj_geom vol_geom ;;
  W <- astra_OpTomo proj_id ;;
  emit (End Geometry) ;;
  (* 73-77  Configuration of TVR-DART parameters *)
  let Ngv := 2%nat in
  let K := np_scalar_mul 4 (np_ones (Ngv - 1)) in
  let lamb := 10%Z in
  let Niter := 50%nat in
  (* 79-87  Initial reconstruction and normalization *)
  emit (Begin InitialReconstruction) ;;
  print "Initial reconstruction..." ;;
  import_ "SIRT" ;;
  recsirt <- SIRT_recon data 50 proj_geom vol_geom "cuda" ;;
  sf <- lift (np_max recsirt) ;;
  let data := np_div_scalar data sf in
  p <- lift (np_reshape1 data (Nan * Ndetx)) ;;
  let recsirt := np_div_scalar recsirt sf in
  emit (End InitialReconstruction) ;;
  (* 89-94  Automatic parameter estimation *)
  emit (Begin ParameterEstimation) ;;
  print "Parameter estimation..." ;;
  let gv := np_linspace 0 1 Ngv in
  param0 <- TVRDART_gv2param gv K ;;
  joint_out <- TVRDART_joint W p recsirt param0 lamb ;;
  let '(Segrec, param_esti) := joint_out in
  gv_K <- TVRDART_param2gv param_esti ;;
  let '(gv, K) := gv_K in
  emit (End ParameterEstimation) ;;
  (* 96-98  Reconstruction with estimated parameters *)
  emit (Begin FinalReconstruction) ;;
  print "Reconstruction with estimated parameters..." ;;
  recon_out <- TVRDART_recon W p recsirt param_esti lamb Niter ;;
  let '(Segrec, rec) := recon_out in
  emit (End FinalReconstruction) ;;
  (* 99-101 *)
  emit (Begin Rescale) ;;
  let gv := np_mul_scalar gv sf in
  let recsirt := np_mul_scalar recsirt sf in
  let Segrec := np_mul_scalar Segrec sf in
  emit (End Rescale) ;;
  (* 103-118  Plots *)
  emit (Begin Plots) ;;
  import_ "pylab" ;;
  pylab_ pl_gray ;;
  pylab_ (pl_figure 1) ;;
  pylab_ (pl_imshow recsirt) ;;
  pylab_ pl_colorbar ;;
  pylab_ (pl_title "SIRT") ;;
  pylab_ (pl_figure 2) ;;
  pylab_ (pl_imshow Segrec) ;;
  pylab_ pl_colorbar ;;
  pylab_ (pl_title "TVR-DART") ;;
  pylab_ pl_show ;;
  emit (End Plots) ;;
  (* 120-122  Save results *)
  emit (Begin SaveResults) ;;
  print "Saving results..." ;;
  np_save "TVRDART2Dreconstruction.npy" Segrec ;;
  emit (End SaveResults) ;;
  ret (MkGlobals data Nan Ndetx angles offset Nx Nz proj_geom vol_geom proj_id W
                 Ngv K lamb Niter recsirt sf p gv param0 Segrec param_esti rec).

End Script.

(** The file the script reads, for a home directory [home]. *)
Definition input_path (home : string) : string :=
  joinpath home ["Documents"; "GitHub"; "ContributedTools"; "nanotube2d.npy"].

(** The file the script writes. *)
Definition output_path (w : World) : string := resolve w "TVRDART2Dreconstruction.npy".

(** ** Reading a trace *)

Definition is_marker (ev : event) : bool :=
  match ev with
  | Begin _ | End _ => true
  | _ => false
  end.

Definition markers (t : list event) : list event := List.filter is_marker t.

Definition stages : list stage :=
  [ReadData; OffsetCorrection; Geometry; InitialReconstruction; ParameterEstimation;
   FinalReconstruction; Rescale; Plots; SaveResults].

(** Every block entered and left once, one after the other. *)
Definition stage_markers : list event := List.flat_map (fun s => [Begin s; End s]) stages.

Definition raised (t : list event) : list exn :=
  List.flat_map (fun ev => match ev with Raised e => [e] | _ => [] end) t.

Definition saves (t : list event) : list (string * ndarray) :=
  List.flat_map (fun ev => match ev with Call (c_np_save n a) => [(n, a)] | _ => [] end) t.

Definition projector_creations (t : list event) : list (string * proj_geom * vol_geom) :=
  List.flat_map
    (fun ev => match ev with Call (c_create_projector ty pg vg) => [(ty, pg, vg)] | _ => [] end) t.

Definition projector_deletions (t : list event) : list nat :=
  List.flat_map (fun ev => match ev with Call (c_projector_delete id) => [id] | _ => [] end) t.

(** The recsirt argument of the calls to [TVRDART.joint]. *)
Definition joint_recsirt (t : list event) : list ndarray :=
  List.flat_map (fun ev => match ev with Call (c_joint _ _ r _ _) => [r] | _ => [] end) t.

(** The calls of a trace. *)
Definition calls (t : list event) : list call :=
  List.flat_map (fun ev => match ev with Call c => [c] | _ => [] end) t.

(** An event without its arguments. *)
Inductive tag : Type :=
| t_begin (s : stage)
| t_end (s : stage)
| t_raise
| t_import (name : string)
| t_print (s : string)
| t_call (name : string).

Definition label (ev : event) : tag :=
  match ev with
  | Begin s => t_begin s
  | End s => t_end s
  | Raised _ => t_raise
  | Call c =>
      match c with
      | c_import n => t_import n
      | c_print s => t_print s
      | c_Path_home => t_call "Path.home"
      | c_np_load _ => t_call "np.load"
      | c_create_proj_geom _ _ _ _ => t_call "astra.create_proj_geom"
      | c_create_vol_geom _ _ => t_call "astra.create_vol_geom"
      | c_create_projector _ _ _ => t_call "astra.create_projector"
      | c_projector_delete _ => t_call "astra.projector.delete"
      | c_OpTomo _ => t_call "astra.OpTomo"
      | c_SIRT_recon _ _ _ _ _ => t_call "SIRT.recon"
      | c_gv2param _ _ => t_call "TVRDART.gv2param"
      | c_joint _ _ _ _ _ => t_call "TVRDART.joint"
      | c_param2gv _ => t_call "TVRDART.param2gv"
      | c_recon _ _ _ _ _ _ => t_call "TVRDART.recon"
      | c_pylab pl_gray => t_call "pylab.gray"
      | c_pylab (pl_figure _) => t_call "pylab.figure"
      | c_pylab (pl_imshow _) => t_call "pylab.imshow"
      | c_pylab pl_colorbar => t_call "pylab.colorbar"
      | c_pylab (pl_title _) => t_call "pylab.title"
      | c_pylab pl_show => t_call "pylab.show"
      | c_np_save _ _ => t_call "np.save"
      end
  end.

(** The script from its first line to its last. *)
Definition straight_line : list tag :=
  [t_import "TVRDART"; t_import "astra"; t_import "numpy"; t_import "pathlib";
   t_begin ReadData; t_call "Path.home"; t_call "np.load"; t_end ReadData;
   t_begin OffsetCorrection; t_print "Intensity-offset correction...";
   t_end OffsetCorrection;
   t_begin Geometry; t_print "Configure projection and volume geometry...";
   t_call "astra.create_proj_geom"; t_call "astra.create_vol_geom";
   t_call "astra.create_projector"; t_call "astra.OpTomo"; t_end Geometry;
   t_begin InitialReconstruction; t_print "Initial reconstruction..."; t_import "SIRT";
   t_call "SIRT.recon"; t_end InitialReconstruction;
   t_begin ParameterEstimation; t_print "Parameter estimation...";
   t_call "TVRDART.gv2param"; t_call "TVRDART.joint"; t_call "TVRDART.param2gv";
   t_end ParameterEstimation;
   t_begin FinalReconstruction; t_print "Reconstruction with estimated parameters...";
   t_call "TVRDART.recon"; t_end FinalReconstruction;
   t_begin Rescale; t_end Rescale;
   t_begin Plots; t_import "pylab"; t_call "pylab.gray";
   t_call "pylab.figure"; t_call "pylab.imshow"; t_call "pylab.colorbar"; t_call "pylab.title";
   t_call "pylab.figure"; t_call "pylab.imshow"; t_call "pylab.colorbar"; t_call "pylab.title";
   t_call "pylab.show"; t_end Plots;
   t_begin SaveResults; t_print "Saving results..."; t_call "np.save"; t_end SaveResults].

(** ** What the claims speak of *)

(** The projection angles as the specification describes them: [Nan] values
    from -50 to +50 degrees in radians, both ends included, evenly spaced
    and increasing. *)
Definition angles_spec (Nan : nat) (angles : ndarray) : Prop :=
  shape angles = [Nan] /\
  length (flat angles) = Nan /\
  (forall x, head (flat angles) = Some x -> x == -50 * np_pi / 180)%Q /\
  (forall y, last (flat angles) = Some y -> y == 50 * np_pi / 180)%Q /\
  (exists step, forall i x y,
      flat angles !! i = Some x -> flat angles !! S i = Some y ->
      y - x == step /\ x < y)%Q.

(** The specification's sentence on the angles, for every sinogram. *)
Definition angles_claim : Prop :=
  forall lib w ty dw n angles,
    In (c_create_proj_geom ty dw n angles) (calls (events (script lib w))) ->
    exists home data Nan,
      home_dir w = Some home /\
      fs w !! input_path home = Some data /\
      shape data = [Nan; n] /\
      angles_spec Nan angles.

(** The specification's sentence on the rescaling, for every non-zero
    normalization factor. *)
Definition rescaling_claim : Prop :=
  forall lib w g,
    value (script lib w) = Ok g ->
    ~ (g_sf g == 0)%Q ->
    (forall a, arr_eq (np_mul_scalar (np_div_scalar a (g_sf g)) (g_sf g)) a) /\
    (forall rn, In rn (joint_recsirt (events (script lib w))) ->
                exists m, np_max rn = Ok m /\ (m == 1)%Q).

(** Two worlds that differ at most in the command line and the environment. *)
Definition same_but_args_env (w1 w2 : World) : Prop :=
  pw_dir w1 = pw_dir w2 /\ cwd w1 = cwd w2 /\ fs w1 = fs w2 /\
  fs_denied w1 = fs_denied w2 /\ astra_projectors w1 = astra_projectors w2 /\
  astra_next_id w1 = astra_next_id w2.

(** ... and that agree on HOME. *)
Definition same_for_script (w1 w2 : World) : Prop :=
  environ w1 !! "HOME" = environ w2 !! "HOME" /\ same_but_args_env w1 w2.

Definition same_run {A} (o1 o2 : Outcome A) : Prop :=
  events o1 = events o2 /\ value o1 = value o2 /\ same_for_script (final o1) (final o2).

(** A computation that sees of the world only what [same_for_script] keeps. *)
Definition oblivious {A} (m : M A) : Prop :=
  forall w1 w2, same_for_script w1 w2 -> same_run (m w1) (m w2).

(** The specification's sentence on the command line and the environment. *)
Definition environment_independence_claim : Prop :=
  forall lib w1 w2,
    same_but_args_env w1 w2 ->
    events (script lib w1) = events (script lib w2) /\
    value (script lib w1) = value (script lib w2).

(** ** A small world and toy collaborators, to run the script on *)

Module Demo.

Definition sinogram : ndarray := NdArray [3; 2]%nat [1; 2; 3; 4; 5; 6]%Q.

Definition single_row : ndarray := NdArray [1; 2]%nat [1; 2]%Q.

Definition const_volume (vg : vol_geom) (v : Q) : ndarray :=
  NdArray (vol_shape vg) (repeat v (GridRowCount vg * GridColCount vg)).

(** -1, -2, -3, ... *)
Definition ramp_volume (vg : vol_geom) : ndarray :=
  NdArray (vol_shape vg)
    (map (fun i : nat => (- inject_Z (Z.of_nat (S i)))%Q)
         (seq 0 (GridRowCount vg * GridColCount vg))).

(** Collaborators that always return, around a given SIRT result. *)
Definition lib_with (sirt : vol_geom -> ndarray) : Collaborators := {|
  import_module := fun _ => None;
  astra_projector_init := fun _ _ _ => None;
  sirt_recon := fun _ _ _ vg _ => Ok (sirt vg);
  tvr_gv2param := fun gv K => Ok (NdArray [(np_size gv + np_size K)%nat] (flat gv ++ flat K));
  tvr_joint := fun W _ _ param0 _ => Ok (const_volume (op_vol_geom W) 1, param0);
  tvr_param2gv := fun param =>
    Ok (NdArray [2%nat] (firstn 2 (flat param)), NdArray [1%nat] (skipn 2 (flat param)));
  tvr_recon := fun W _ recsirt _ _ _ => Ok (const_volume (op_vol_geom W) 1, recsirt);
  pylab_call := fun _ => None
|}.

Definition lib : Collaborators := lib_with (fun vg => const_volume vg 2).
Definition lib_negative : Collaborators := lib_with ramp_volume.

Definition sinogram_path : string :=
  "/home/u/Documents/GitHub/ContributedTools/nanotube2d.npy".

(** The file [data] in the home directory of u, for a process whose HOME is
    [home]. *)
Definition world_with (home : string) (data : ndarray) : World := {|
  argv := ["s01_recon2D.py"];
  environ := {["HOME" := home]};
  pw_dir := Some "/home/u";
  cwd := "/work";
  fs := {[sinogram_path := data]};
  fs_denied := ∅;
  astra_projectors := ∅;
  astra_next_id := 1
|}.

Definition world : World := world_with "/home/u" sinogram.

(** The same world, another command line and one more variable. *)
Definition world_other_args : World := {|
  argv := ["s01_recon2D.py"; "--fast"];
  environ := <["CUDA_VISIBLE_DEVICES" := "1"]> {["HOME" := "/home/u"]};
  pw_dir := Some "/home/u";
  cwd := "/work";
  fs := {[sinogram_path := sinogram]};
  fs_denied := ∅;
  astra_projectors := ∅;
  astra_next_id := 1
|}.

(** The projection geometry the script builds for [sinogram]. *)
Definition sinogram_proj_geom : proj_geom :=
  ProjGeom "parallel" 1 2 (np_mul_scalar (np_linspace (-50) 50 3) (np_pi / 180)).

(** [sinogram] after the offset correction. *)
Definition corrected : ndarray := np_sub_scalar sinogram (- (893 # 100000)).

End Demo.

(** The pylab calls of a trace. *)
Definition plot_calls (t : list event) : list plot_call :=
  List.flat_map (fun ev => match ev with Call (c_pylab pc) => [pc] | _ => [] end) t.

(** ** Collaborators and files that fail *)

Module Faulty.

(** [l] with another import function, SIRT function and pylab function. *)
Definition with_faults (imp : string -> option exn)
    (sirt : ndarray -> nat -> proj_geom -> vol_geom -> string -> result ndarray)
    (plot : plot_call -> option exn) (l : Collaborators) : Collaborators := {|
  import_module := imp;
  astra_projector_init := astra_projector_init l;
  sirt_recon := sirt;
  tvr_gv2param := tvr_gv2param l;
  tvr_joint := tvr_joint l;
  tvr_param2gv := tvr_param2gv l;
  tvr_recon := tvr_recon l;
  pylab_call := plot
|}.

Definition missing (name : string) (n : string) : option exn :=
  if String.eqb n name then Some (ModuleNotFoundError name) else None.

(** No module SIRT. *)
Definition lib_no_SIRT : Collaborators :=
  with_faults (missing "SIRT") (sirt_recon Demo.lib) (pylab_call Demo.lib) Demo.lib.

(** No module pylab. *)
Definition lib_no_pylab : Collaborators :=
  with_faults (missing "pylab") (sirt_recon Demo.lib) (pylab_call Demo.lib) Demo.lib.

(** No display: [pylab.show()] raises. *)
Definition no_display (pc : plot_call) : option exn :=
  match pc with
  | pl_show => Some (LibraryError "pylab" "no display")
  | _ => None
  end.

Definition lib_no_display : Collaborators :=
  with_faults (import_module Demo.lib) (sirt_recon Demo.lib) no_display Demo.lib.

(** SIRT returns an array without elements. *)
Definition lib_empty : Collaborators :=
  with_faults (import_module Demo.lib) (fun _ _ _ _ _ => Ok (NdArray [0; 0]%nat []))
              (pylab_call Demo.lib) Demo.lib.

(** A file that holds a three-dimensional array. *)
Definition cube : ndarray := NdArray [1; 1; 2]%nat [1; 2]%Q.

(** matplotlib refuses the backend: [import pylab] raises. *)
Definition bad_backend (n : string) : option exn :=
  if String.eqb n "pylab" then Some (LibraryError "matplotlib" "not a valid backend")
  else None.

Definition lib_bad_backend : Collaborators :=
  with_faults bad_backend (sirt_recon Demo.lib) (pylab_call Demo.lib) Demo.lib.

(** Libraries as they behave for a command line and an environment:
    matplotlib reads MPLBACKEND when pylab is imported. *)
Definition libraries (args : list string) (env : gmap string string) : Collaborators :=
  if decide (env !! "MPLBACKEND" = Some "bogus") then lib_bad_backend else Demo.lib.

(** [Demo.world] with a backend that matplotlib does not know. *)
Definition world_bad_backend : World := {|
  argv := ["s01_recon2D.py"];
  environ := <["MPLBACKEND" := "bogus"]> {["HOME" := "/home/u"]};
  pw_dir := Some "/home/u";
  cwd := "/work";
  fs := {[Demo.sinogram_path := Demo.sinogram]};
  fs_denied := ∅;
  astra_projectors := ∅;
  astra_next_id := 1
|}.

End Faulty.

(** ** Symbolic execution of the script *)

Ltac head_scrut t :=
  lazymatch t with
  | match ?x with _ => _ end => head_scrut x
  | (match ?x with _ => _ end) _ => head_scrut x
  | _ => t
  end.

Ltac exec_norm H :=
  cbv beta iota zeta delta
    [script bind prepend ret raise lift emit effect invoke get_world put_world
     import_ Path_home np_load print np_save astra_create_proj_geom astra_create_vol_geom
     astra_create_projector astra_OpTomo SIRT_recon TVRDART_gv2param TVRDART_joint
     TVRDART_param2gv TVRDART_recon pylab_ app
     set_fs set_projectors astra_projectors astra_next_id fs fs_denied cwd environ pw_dir
     argv pj_proj_geom pj_vol_geom resolve] in H;
  rewrite ?lookup_insert_eq in H.

Ltac exec_step H :=
  lazymatch type of H with
  | _ = match ?x with _ => _ end =>
      let s := head_scrut x in
      destruct s eqn:?; exec_norm H
  end.

(** Every run of the script, one goal per way it can end; [o] is the
    outcome. *)
Ltac run_script lib w o :=
  let Ho := fresh "Ho" in
  remember (script lib w) as o eqn:Ho;
  destruct w as [av env pw wd files denied projs next];
  exec_norm Ho;
  repeat exec_step Ho;
  subst o.

Ltac trace_norm :=
  cbn [events final value calls markers raised saves projector_creations projector_deletions
       joint_recsirt List.flat_map List.filter List.map is_marker label app length
       fs astra_projectors astra_next_id cwd].

Ltac trace_norm_in H :=
  cbn [events final value calls markers raised saves projector_creations projector_deletions
       joint_recsirt List.flat_map List.filter List.map is_marker label app length
       fs astra_projectors astra_next_id cwd In] in H.

(** The call a hypothesis [In c (calls ...)] speaks of. *)
Ltac pick_call H :=
  trace_norm_in H;
  repeat (destruct H as [H|H]; [simplify_eq|]);
  try contradiction.

Ltac find_call := trace_norm; cbn [In]; repeat first [left; reflexivity | right].

(** Bring the hypothesis [Hf] on a file of the initial world to the form the
    run has it in, and rewrite it with what the run found there. *)
Ltac same_lookup Hf :=
  match goal with
  | H : ?m !! ?p = _ |- _ =>
      lazymatch H with Hf => fail | _ => idtac end;
      lazymatch type of Hf with
      | _ = ?v => change (m !! p = v) in Hf; rewrite H in Hf
      end
  end.

Create HintDb oblivious.

(** ** Facts about the numpy operations *)

Section Numpy.

Local Open Scope Q_scope.

Lemma set_last_snoc (l : list Q) (x v : Q) : set_last (l ++ [x]) v = l ++ [v].
Proof.
  unfold set_last. destruct (l ++ [x]) eqn:E.
  - destruct l; discriminate E.
  - rewrite <- E, removelast_last. reflexivity.
Qed.

Lemma linspace_flat (start stop : Q) (n : nat) :
  (2 <= n)%nat ->
  flat (np_linspace start stop n) = map (grid start stop n) (seq 0 (n - 1)) ++ [stop].
Proof.
  intros Hn. unfold np_linspace. cbn [flat].
  destruct (Nat.ltb_spec 1 n) as [_|]; [|lia].
  destruct (Nat.ltb_spec 0 (n - 1)) as [_|]; [|lia].
  replace (seq 0 n) with (seq 0 (n - 1) ++ [(n - 1)%nat]).
  - rewrite map_app. cbn [map]. rewrite set_last_snoc. reflexivity.
  - replace n with (S (n - 1)) at 3 by lia. rewrite seq_S. reflexivity.
Qed.

Lemma linspace_length (start stop : Q) (n : nat) :
  length (flat (np_linspace start stop n)) = n.
Proof.
  destruct (le_lt_dec 2 n) as [Hn|Hn].
  - rewrite linspace_flat by exact Hn.
    rewrite length_app, length_map, length_seq. cbn [length]. lia.
  - unfold np_linspace. cbn [flat].
    destruct (Nat.ltb_spec 1 n) as [|_]; [lia|].
    rewrite length_map, length_seq. reflexivity.
Qed.

Lemma grid_last (start stop : Q) (n : nat) :
  (2 <= n)%nat -> grid start stop n (n - 1) == stop.
Proof.
  intros Hn. unfold grid.
  assert (H : ~ inject_Z (Z.of_nat (n - 1)) == 0).
  { replace 0 with (inject_Z 0) by reflexivity. rewrite inject_Z_injective. lia. }
  field. exact H.
Qed.

Lemma grid_step (start stop : Q) (n i : nat) :
  (2 <= n)%nat ->
  grid start stop n (S i) - grid start stop n i == (stop - start) / inject_Z (Z.of_nat (n - 1)).
Proof.
  intros Hn. unfold grid.
  assert (H : ~ inject_Z (Z.of_nat (n - 1)) == 0).
  { replace 0 with (inject_Z 0) by reflexivity. rewrite inject_Z_injective. lia. }
  rewrite Nat2Z.inj_succ. unfold Z.succ. rewrite inject_Z_plus.
  change (inject_Z 1) with 1. field. exact H.
Qed.

(** Every element of a linspace of at least two points is its grid point. *)
Lemma linspace_lookup (start stop : Q) (n i : nat) (x : Q) :
  (2 <= n)%nat ->
  flat (np_linspace start stop n) !! i = Some x ->
  (i < n)%nat /\ x == grid start stop n i.
Proof.
  intros Hn Hx. rewrite linspace_flat in Hx by exact Hn.
  assert (Hlen : length (map (grid start stop n) (seq 0 (n - 1))) = (n - 1)%nat)
    by (rewrite length_map, length_seq; reflexivity).
  destruct (Nat.lt_ge_cases i (n - 1)) as [Hi|Hi].
  - rewrite lookup_app_l in Hx by lia.
    rewrite list_lookup_fmap in Hx.
    rewrite lookup_seq_lt in Hx by exact Hi. cbn in Hx.
    injection Hx as <-. split; [lia | reflexivity].
  - rewrite lookup_app_r in Hx by lia. rewrite Hlen in Hx.
    destruct (i - (n - 1))%nat eqn:E; cbn in Hx; [|discriminate Hx].
    injection Hx as <-. assert (i = (n - 1)%nat) as -> by lia.
    split; [lia | symmetry; apply grid_last; exact Hn].
Qed.

Lemma np_mul_scalar_lookup (a : ndarray) (c : Q) (i : nat) (y : Q) :
  flat (np_mul_scalar a c) !! i = Some y ->
  exists x, flat a !! i = Some x /\ y = x * c.
Proof.
  unfold np_mul_scalar. cbn [flat]. rewrite list_lookup_fmap.
  destruct (flat a !! i) as [x|]; cbn; [|discriminate].
  intros [= <-]. exists x. split; reflexivity.
Qed.

(** [np.max] returns an element of the array that bounds all the others. *)
Lemma fold_max_spec (xs : list Q) (x : Q) :
  In (fold_left Qmax xs x) (x :: xs) /\
  forall y, In y (x :: xs) -> y <= fold_left Qmax xs x.
Proof.
  revert x. induction xs as [|z xs IH]; intros x; cbn [fold_left].
  - split; [left; reflexivity|]. intros y [<-|[]]. apply Qle_refl.
  - destruct (IH (Qmax x z)) as [Hin Hub]. split.
    + destruct Hin as [Hin|Hin]; [|right; right; exact Hin].
      rewrite <- Hin. unfold Qmax, GenericMinMax.gmax.
      destruct (x ?= z); [left | right; left | left]; reflexivity.
    + intros y [<-|[<-|Hy]].
      * eapply Qle_trans; [apply Q.le_max_l | apply Hub; left; reflexivity].
      * eapply Qle_trans; [apply Q.le_max_r | apply Hub; left; reflexivity].
      * apply Hub. right. exact Hy.
Qed.

Lemma np_max_spec (a : ndarray) (m : Q) :
  np_max a = Ok m ->
  In m (flat a) /\ forall y, In y (flat a) -> y <= m.
Proof.
  unfold np_max. destruct (flat a) as [|x xs]; [discriminate|].
  intros [= <-]. apply fold_max_spec.
Qed.



(** Dividing by a non-zero scalar and multiplying by it again gives the
    array back. *)
Lemma div_mul_roundtrip (a : ndarray) (c : Q) :
  ~ c == 0 -> arr_eq (np_mul_scalar (np_div_scalar a c) c) a.
Proof.
  intros Hc. split; [reflexivity|]. cbn [np_mul_scalar np_div_scalar flat].
  induction (flat a) as [|x xs IH]; cbn [map]; constructor; [|exact IH].
  field. exact Hc.
Qed.


(** Dividing an array by its positive maximum makes the maximum one. *)
Lemma max_of_normalized (a : ndarray) (sf m : Q) :
  np_max a = Ok sf -> 0 < sf -> np_max (np_div_scalar a sf) = Ok m -> m == 1.
Proof.
  intros Hsf Hpos Hm.
  apply np_max_spec in Hsf as [Hin Hub].
  apply np_max_spec in Hm as [Hin' Hub'].
  cbn [np_div_scalar flat] in Hin', Hub'.
  apply in_map_iff in Hin' as (x & <- & Hx).
  apply Qle_antisym.
  - apply Qle_shift_div_r; [exact Hpos|]. rewrite Qmult_1_l. apply Hub. exact Hx.
  - assert (H1 : sf / sf <= x / sf).
    { apply Hub'. apply in_map_iff. exists sf. split; [reflexivity | exact Hin]. }
    assert (E : sf / sf == 1) by (field; lra).
    rewrite E in H1. exact H1.
Qed.

End Numpy.

Lemma np_max_div_defined (a : ndarray) (sf c : Q) :
  np_max a = Ok sf -> exists m, np_max (np_div_scalar a c) = Ok m.
Proof.
  unfold np_max. cbn [np_div_scalar flat].
  destruct (flat a); [discriminate|]. cbn [map]. eauto.
Qed.


Lemma unpack_shape2_ok (a : ndarray) (n m : nat) :
  unpack_shape2 a = Ok (n, m) -> shape a = [n; m].
Proof.
  unfold unpack_shape2. destruct (shape a) as [|? [|? [|? ?]]]; intros H; simplify_eq.
  reflexivity.
Qed.

Lemma reshape_ok (a p : ndarray) (n : nat) :
  np_reshape1 a n = Ok p -> shape p = [n] /\ flat p = flat a.
Proof.
  unfold np_reshape1. destruct (np_size a =? n)%nat; intros H; simplify_eq.
  split; reflexivity.
Qed.




(** ** The projection angles *)

Section Angles.

Local Open Scope Q_scope.

Lemma positive_denominator (n : nat) : (2 <= n)%nat -> 0 < inject_Z (Z.of_nat (n - 1)).
Proof.
  intros Hn. replace 0 with (inject_Z 0) by reflexivity.
  rewrite <- Zlt_Qlt. lia.
Qed.

(** The angles of at least two rows: the grid from -50 to 50 degrees, in
    radians. *)
Lemma angles_lookup (n i : nat) (y : Q) :
  (2 <= n)%nat ->
  flat (np_mul_scalar (np_linspace (-50) 50 n) (np_pi / 180)) !! i = Some y ->
  (i < n)%nat /\ y == grid (-50) 50 n i * (np_pi / 180).
Proof.
  intros Hn Hy. apply np_mul_scalar_lookup in Hy as (x & Hx & ->).
  apply linspace_lookup in Hx as [Hi Hx]; [|exact Hn].
  split; [exact Hi|]. rewrite Hx. reflexivity.
Qed.

Lemma angles_spec_linspace (n : nat) :
  (2 <= n)%nat ->
  angles_spec n (np_mul_scalar (np_linspace (-50) 50 n) (np_pi / 180)).
Proof.
  intros Hn. pose proof (positive_denominator n Hn) as Hpos.
  assert (Hlen : length (flat (np_mul_scalar (np_linspace (-50) 50 n) (np_pi / 180))) = n).
  { cbn [np_mul_scalar flat]. rewrite length_map. apply linspace_length. }
  split; [reflexivity|]. split; [exact Hlen|]. split; [|split].
  - intros x Hx. rewrite head_lookup in Hx.
    apply angles_lookup in Hx as [_ ->]; [|exact Hn].
    unfold grid. change (inject_Z (Z.of_nat 0)) with 0. field. lra.
  - intros y Hy. rewrite last_lookup, Hlen in Hy.
    replace (Init.Nat.pred n) with (n - 1)%nat in Hy by lia.
    apply angles_lookup in Hy as [_ ->]; [|exact Hn].
    rewrite grid_last by exact Hn. field.
  - exists ((50 - -50) / inject_Z (Z.of_nat (n - 1)) * (np_pi / 180)).
    intros i x y Hx Hy.
    apply angles_lookup in Hx as [_ Hx]; [|exact Hn].
    apply angles_lookup in Hy as [_ Hy]; [|exact Hn].
    assert (Hstep : y - x == (50 - -50) / inject_Z (Z.of_nat (n - 1)) * (np_pi / 180)).
    { rewrite Hx, Hy, <- (grid_step (-50) 50 n i Hn). ring. }
    split; [exact Hstep|].
    assert (Hs : 0 < (50 - -50) / inject_Z (Z.of_nat (n - 1)) * (np_pi / 180)).
    { apply Qmult_lt_0_compat; [|reflexivity].
      apply Qlt_shift_div_l; [exact Hpos|]. rewrite Qmult_0_l. reflexivity. }
    lra.
Qed.

(** One row: the single angle is -50 degrees. *)
Lemma angles_single :
  exists x, flat (np_mul_scalar (np_linspace (-50) 50 1) (np_pi / 180)) = [x] /\
            x == -50 * np_pi / 180.
Proof. eexists. split; reflexivity. Qed.

End Angles.

(** ** What the script sees of the world *)

Section Oblivious.

Variable lib : Collaborators.

Lemma oblivious_ret {A} (a : A) : oblivious (ret a).
Proof. intros w1 w2 H. repeat split; try apply H. Qed.

Lemma oblivious_raise {A} (e : exn) : oblivious (@raise A e).
Proof. intros w1 w2 H. repeat split; try apply H. Qed.

Lemma oblivious_emit (ev : event) : oblivious (emit ev).
Proof. intros w1 w2 H. repeat split; try apply H. Qed.

Lemma oblivious_bind {A B} (m : M A) (f : A -> M B) :
  oblivious m -> (forall a, oblivious (f a)) -> oblivious (bind m f).
Proof.
  intros Hm Hf w1 w2 H. unfold bind.
  destruct (Hm w1 w2 H) as (He & Hv & Hw).
  destruct (m w1) as [t1 w1' r1], (m w2) as [t2 w2' r2].
  cbn [events value final] in He, Hv, Hw. subst t2 r2.
  destruct r1 as [a|e].
  - destruct (Hf a w1' w2' Hw) as (He & Hv & Hw').
    destruct (f a w1') as [t1' w1'' r1'], (f a w2') as [t2' w2'' r2'].
    cbn [events value final prepend] in *. subst. repeat split; try apply Hw'.
  - repeat split; try apply Hw.
Qed.

Lemma oblivious_lift {A} (r : result A) : oblivious (lift r).
Proof. destruct r; [apply oblivious_ret | apply oblivious_raise]. Qed.

Lemma oblivious_effect (c : call) (fault : option exn) : oblivious (effect c fault).
Proof.
  unfold effect. apply oblivious_bind; [apply oblivious_emit|]. intros _.
  destruct fault; [apply oblivious_raise | apply oblivious_ret].
Qed.

Lemma oblivious_invoke {A} (c : call) (r : result A) : oblivious (invoke c r).
Proof.
  unfold invoke. apply oblivious_bind; [apply oblivious_emit|]. intros _.
  apply oblivious_lift.
Qed.

Lemma same_home (w1 w2 : World) : same_for_script w1 w2 -> home_dir w1 = home_dir w2.
Proof. intros (Hh & Hp & _). unfold home_dir. rewrite Hh, Hp. reflexivity. Qed.

Lemma oblivious_Path_home : oblivious Path_home.
Proof.
  intros w1 w2 H. pose proof (same_home w1 w2 H) as Hh.
  unfold Path_home, bind, emit, get_world. cbn. rewrite Hh.
  destruct (home_dir w2); cbn; repeat split; try apply H.
Qed.

Lemma oblivious_np_load (path : string) : oblivious (np_load path).
Proof.
  intros w1 w2 H. destruct H as (Hh & Hp & Hc & Hf & Hd & Hpr & Hn).
  unfold np_load, bind, emit, get_world. cbn. rewrite Hf.
  destruct (fs w2 !! path); cbn; repeat split; assumption.
Qed.

Lemma oblivious_np_save (name : string) (a : ndarray) : oblivious (np_save name a).
Proof.
  intros w1 w2 H. destruct H as (Hh & Hp & Hc & Hf & Hd & Hpr & Hn).
  unfold np_save, bind, emit, get_world, resolve. cbn. rewrite Hc, Hd.
  destruct (decide (cwd w2 +:+ "/" +:+ name ∈ fs_denied w2)); cbn.
  - repeat split; assumption.
  - rewrite Hf. repeat split; assumption.
Qed.

Lemma oblivious_create_projector ty pg vg : oblivious (astra_create_projector lib ty pg vg).
Proof.
  intros w1 w2 H. destruct H as (Hh & Hp & Hc & Hf & Hd & Hpr & Hn).
  unfold astra_create_projector, effect, bind, emit, get_world, put_world. cbn.
  destruct (astra_projector_init lib ty pg vg); cbn.
  - repeat split; assumption.
  - rewrite Hpr, Hn. repeat split; assumption.
Qed.

Lemma oblivious_OpTomo id : oblivious (astra_OpTomo id).
Proof.
  intros w1 w2 H. destruct H as (Hh & Hp & Hc & Hf & Hd & Hpr & Hn).
  unfold astra_OpTomo, bind, emit, get_world. cbn. rewrite Hpr.
  destruct (astra_projectors w2 !! id); cbn; repeat split; assumption.
Qed.

Lemma oblivious_create_proj_geom ty dw n angles :
  oblivious (astra_create_proj_geom ty dw n angles).
Proof. apply oblivious_bind; [apply oblivious_emit | intros _; apply oblivious_ret]. Qed.

Lemma oblivious_create_vol_geom ny nx : oblivious (astra_create_vol_geom ny nx).
Proof. apply oblivious_bind; [apply oblivious_emit | intros _; apply oblivious_ret]. Qed.

#[local] Hint Resolve oblivious_ret oblivious_raise oblivious_emit oblivious_lift
  oblivious_effect oblivious_invoke oblivious_Path_home oblivious_np_load oblivious_np_save
  oblivious_create_projector oblivious_OpTomo oblivious_create_proj_geom
  oblivious_create_vol_geom : oblivious.

(** Every statement of the script is oblivious, and so is their sequence. *)
Lemma oblivious_script : oblivious (script lib).
Proof.
  unfold script, import_, pylab_, print, SIRT_recon, TVRDART_gv2param, TVRDART_joint,
    TVRDART_param2gv, TVRDART_recon.
  repeat first
    [ solve [auto with oblivious]
    | apply oblivious_bind; [solve [auto with oblivious] | intros ?]
    | match goal with |- oblivious (let '(_, _) := ?x in _) => destruct x end ].
Qed.

End Oblivious.

(** ** Runs of the script *)

(** The toy run goes through. *)
Example demo_run_succeeds :
  exists g, value (script Demo.lib Demo.world) = Ok g /\
            g_Ndetx g = 2%nat /\ g_sf g = (2 # 1)%Q.
Proof. vm_compute. eexists. repeat split. Qed.

(** The blocks entered and left in a run, complete or not, are the first
    blocks of the script. *)
Lemma markers_prefix lib w :
  exists k, markers (events (script lib w)) = firstn k stage_markers.
Proof.
  run_script lib w o; trace_norm.
  all: first
    [ exists 0%nat; reflexivity | exists 1%nat; reflexivity | exists 2%nat; reflexivity
    | exists 3%nat; reflexivity | exists 4%nat; reflexivity | exists 5%nat; reflexivity
    | exists 6%nat; reflexivity | exists 7%nat; reflexivity | exists 8%nat; reflexivity
    | exists 9%nat; reflexivity | exists 10%nat; reflexivity | exists 11%nat; reflexivity
    | exists 12%nat; reflexivity | exists 13%nat; reflexivity | exists 14%nat; reflexivity
    | exists 15%nat; reflexivity | exists 16%nat; reflexivity | exists 17%nat; reflexivity
    | exists 18%nat; reflexivity ].
Qed.

(** A run that ends in an exception has recorded it. *)
Lemma raise_is_recorded lib w e :
  value (script lib w) = Raise e -> In e (raised (events (script lib w))).
Proof.
  run_script lib w o; trace_norm; intros Hv; simplify_eq; left; reflexivity.
Qed.

(** ** The claims *)

(** C1: the volume geometry the script configures is the square of side
    Ndetx, the second dimension of the loaded sinogram, and, when
    [TVRDART.recon] returns a segmented array of the shape of the volume
    geometry of its operator, the array the script saves is Ndetx by Ndetx,
    the shape of the configured volume. *)
Theorem saved_reconstruction_has_volume_shape lib w g :
  (forall W p r param lamb n Segrec rec,
      tvr_recon lib W p r param lamb n = Ok (Segrec, rec) ->
      shape Segrec = vol_shape (op_vol_geom W)) ->
  value (script lib w) = Ok g ->
  exists home data,
    home_dir w = Some home /\
    fs w !! input_path home = Some data /\
    shape data = [g_Nan g; g_Ndetx g] /\
    g_vol_geom g = VolGeom (g_Ndetx g) (g_Ndetx g) /\
    In (c_create_vol_geom (g_Ndetx g) (g_Ndetx g)) (calls (events (script lib w))) /\
    fs (final (script lib w)) !! output_path w = Some (g_Segrec g) /\
    shape (g_Segrec g) = [g_Ndetx g; g_Ndetx g] /\
    shape (g_Segrec g) = vol_shape (g_vol_geom g).
Proof.
  intros Hshape. run_script lib w o; trace_norm; intros Hg; simplify_eq.
  cbn [g_Nan g_Ndetx g_vol_geom g_Segrec].
  match goal with H : tvr_recon _ _ _ _ _ _ _ = Ok _ |- _ => apply Hshape in H; cbn in H end.
  match goal with H : unpack_shape2 _ = Ok _ |- _ => apply unpack_shape2_ok in H end.
  unfold input_path, output_path, resolve. cbn [fs cwd].
  do 2 eexists. split; [reflexivity|]. split; [eassumption|]. split; [assumption|].
  split; [reflexivity|]. split; [find_call|].
  split; [apply lookup_insert_eq|]. split; assumption.
Qed.

Lemma saved_reconstruction_has_volume_shape_witness :
  exists g, value (script Demo.lib Demo.world) = Ok g /\
            g_vol_geom g = VolGeom 2 2 /\ shape (g_Segrec g) = [2; 2]%nat.
Proof.
  eexists. split; [vm_compute; reflexivity|].
  edestruct (saved_reconstruction_has_volume_shape Demo.lib Demo.world)
    as (home & data & _ & _ & _ & Hvg & _ & _ & Hs & _).
  - intros W p r param lamb n Segrec rec H. cbn in H. injection H as <- <-. reflexivity.
  - vm_compute. reflexivity.
  - split; [exact Hvg | exact Hs].
Defined.

(** C2: the data handed on after the offset correction is the loaded
    sinogram with every element replaced by that element minus -0.00893,
    that is plus 0.00893; nothing else has changed it, its shape included. *)
Theorem offset_correction_adds_constant lib w d n pg vg ty :
  In (c_SIRT_recon d n pg vg ty) (calls (events (script lib w))) ->
  exists home data,
    home_dir w = Some home /\
    fs w !! input_path home = Some data /\
    d = np_sub_scalar data (- (893 # 100000)) /\
    shape d = shape data /\
    flat d = map (fun x => x + (893 # 100000))%Q (flat data).
Proof.
  run_script lib w o; intros Hc; pick_call Hc.
  all: unfold input_path; cbn [fs].
  all: do 2 eexists; split; [reflexivity|]; split; [eassumption|].
  all: repeat split; reflexivity.
Qed.

Lemma offset_correction_adds_constant_witness :
  exists data,
    fs Demo.world !! input_path "/home/u" = Some data /\
    flat Demo.corrected = map (fun x => x + (893 # 100000))%Q (flat data).
Proof.
  destruct (offset_correction_adds_constant Demo.lib Demo.world Demo.corrected 50
              Demo.sinogram_proj_geom (VolGeom 2 2) "cuda")
    as (home & data & Hh & Hd & _ & _ & Hf).
  - vm_compute. tauto.
  - injection Hh as <-. exists data. split; [exact Hd | exact Hf].
Defined.

(** C3, amended: the angles handed to [astra.create_proj_geom] are a 1D
    array as long as the sinogram has rows; for two rows or more they are
    evenly spaced and increasing from -50*pi/180 to +50*pi/180, both
    included; for a single row the array is the single value -50*pi/180. *)
Theorem angles_are_a_linspace lib w ty dw n angles :
  In (c_create_proj_geom ty dw n angles) (calls (events (script lib w))) ->
  exists home data Nan,
    home_dir w = Some home /\
    fs w !! input_path home = Some data /\
    shape data = [Nan; n] /\
    shape angles = [Nan] /\
    length (flat angles) = Nan /\
    ((2 <= Nan)%nat -> angles_spec Nan angles) /\
    (Nan = 1%nat -> exists x, flat angles = [x] /\ (x == -50 * np_pi / 180)%Q).
Proof.
  run_script lib w o; intros Hc; pick_call Hc.
  all: match goal with H : unpack_shape2 _ = Ok _ |- _ => apply unpack_shape2_ok in H end.
  all: unfold input_path; cbn [fs].
  all: do 3 eexists; split; [reflexivity|]; split; [eassumption|]; split; [eassumption|].
  all: split; [reflexivity|]; split;
         [cbn [np_mul_scalar flat]; rewrite length_map; apply linspace_length|].
  all: split; [apply angles_spec_linspace | intros ->; apply angles_single].
Qed.

Lemma angles_are_a_linspace_witness :
  angles_spec 3 (ProjectionAngles Demo.sinogram_proj_geom).
Proof.
  destruct (angles_are_a_linspace Demo.lib Demo.world "parallel" 1%Q 2
              (ProjectionAngles Demo.sinogram_proj_geom))
    as (home & data & Nan & Hh & Hd & Hs & _ & _ & Hspec & _).
  - vm_compute. tauto.
  - injection Hh as <-. vm_compute in Hd. injection Hd as <-.
    injection Hs as <-. apply Hspec. lia.
Defined.

(** C3 as the specification has it fails on a sinogram of one row: the
    single angle is -50 degrees, and +50 degrees is not reached. *)
Lemma single_row_breaks_angles_claim : ~ angles_claim.
Proof.
  intros H.
  destruct (H Demo.lib (Demo.world_with "/home/u" Demo.single_row) "parallel" 1%Q 2%nat
              (np_mul_scalar (np_linspace (-50) 50 1) (np_pi / 180)))
    as (home & data & Nan & Hh & Hd & Hs & _ & Hlen & _ & Hlast & _).
  - vm_compute. tauto.
  - specialize (Hlast _ eq_refl). vm_compute in Hlast. discriminate Hlast.
Qed.


(** C5: an exception raised anywhere in the script is the outcome of the
    run: it is the only one raised, it is the last event, what ran before
    it is an initial segment of the script, and nothing has been saved. *)
Theorem exceptions_propagate lib w e :
  In e (raised (events (script lib w))) ->
  value (script lib w) = Raise e /\
  raised (events (script lib w)) = [e] /\
  last (events (script lib w)) = Some (Raised e) /\
  (length (events (script lib w)) <= length straight_line)%nat /\
  map label (events (script lib w)) =
    firstn (length (events (script lib w)) - 1) straight_line ++ [t_raise] /\
  fs (final (script lib w)) = fs w.
Proof.
  run_script lib w o; trace_norm; cbn [In]; intros Hr;
    try contradiction; destruct Hr as [<-|[]].
  all: repeat split; try reflexivity.
  all: cbn; lia.
Qed.

Lemma exceptions_propagate_witness :
  value (script Demo.lib (Demo.world_with "/home/v" Demo.sinogram)) =
    Raise (FileNotFoundError (input_path "/home/v")) /\
  map label (events (script Demo.lib (Demo.world_with "/home/v" Demo.sinogram))) =
    firstn 7 straight_line ++ [t_raise].
Proof.
  destruct (exceptions_propagate Demo.lib (Demo.world_with "/home/v" Demo.sinogram)
              (FileNotFoundError (input_path "/home/v")))
    as (Hv & _ & _ & _ & Hl & _).
  - vm_compute. tauto.
  - split; [exact Hv | exact Hl].
Defined.

(** C6: in a run that ends, the nine blocks are entered and left once
    each, one after the other, in the order load, offset correction,
    geometry, initial reconstruction, parameter estimation, final
    reconstruction, rescaling, plots, save; and the calls of the run are
    those of the script from its first line to its last. *)
Theorem stages_run_once_in_order lib w g :
  value (script lib w) = Ok g ->
  markers (events (script lib w)) =
    [Begin ReadData; End ReadData;
     Begin OffsetCorrection; End OffsetCorrection;
     Begin Geometry; End Geometry;
     Begin InitialReconstruction; End InitialReconstruction;
     Begin ParameterEstimation; End ParameterEstimation;
     Begin FinalReconstruction; End FinalReconstruction;
     Begin Rescale; End Rescale;
     Begin Plots; End Plots;
     Begin SaveResults; End SaveResults] /\
  map label (events (script lib w)) = straight_line.
Proof.
  run_script lib w o; cbn [value]; intros Hv; try discriminate Hv.
  split; reflexivity.
Qed.

Lemma stages_run_once_in_order_witness :
  map label (events (script Demo.lib Demo.world)) = straight_line.
Proof.
  eapply stages_run_once_in_order. vm_compute. reflexivity.
Defined.

(** C7, amended: the input file is the fixed path below the home
    directory that [Path.home()] returns.  The script itself reads nothing
    of the command line and, of the environment, only HOME; the libraries
    it imports may read both.  So two worlds that differ in nothing but the
    command line and the environment, that agree on HOME, and for which the
    libraries behave alike, give the same events (the file consulted among
    them), the same values and the same files. *)
Theorem environment_matters_only_through_HOME
    (libs : list string -> gmap string string -> Collaborators) w1 w2 :
  same_but_args_env w1 w2 ->
  environ w1 !! "HOME" = environ w2 !! "HOME" ->
  libs (argv w1) (environ w1) = libs (argv w2) (environ w2) ->
  events (script (libs (argv w1) (environ w1)) w1) =
    events (script (libs (argv w2) (environ w2)) w2) /\
  value (script (libs (argv w1) (environ w1)) w1) =
    value (script (libs (argv w2) (environ w2)) w2) /\
  same_but_args_env (final (script (libs (argv w1) (environ w1)) w1))
                    (final (script (libs (argv w2) (environ w2)) w2)).
Proof.
  intros Hw Hh Hl. rewrite <- Hl.
  destruct (oblivious_script (libs (argv w1) (environ w1)) w1 w2 (conj Hh Hw))
    as (He & Hv & _ & Hf).
  repeat split; try assumption; apply Hf.
Qed.

Lemma environment_matters_only_through_HOME_witness :
  events (script Demo.lib Demo.world) = events (script Demo.lib Demo.world_other_args) /\
  value (script Demo.lib Demo.world) = value (script Demo.lib Demo.world_other_args).
Proof.
  destruct (environment_matters_only_through_HOME Faulty.libraries
              Demo.world Demo.world_other_args) as (He & Hv & _).
  - repeat split.
  - vm_compute. reflexivity.
  - reflexivity.
  - split; [exact He | exact Hv].
Defined.

(** C7 as the specification has it fails: two worlds that differ only in
    the value of HOME read different files, and here the second run finds
    none. *)
Lemma HOME_changes_the_input_file : ~ environment_independence_claim.
Proof.
  intros H.
  destruct (H Demo.lib (Demo.world_with "/home/u" Demo.sinogram)
              (Demo.world_with "/home/v" Demo.sinogram)) as [_ Hv].
  - repeat split.
  - vm_compute in Hv. discriminate Hv.
Qed.

(** Why the libraries are in the statement: two worlds with one HOME, where
    matplotlib reads another MPLBACKEND, do not end alike. *)
Example libraries_read_the_environment :
  same_but_args_env Demo.world Faulty.world_bad_backend /\
  environ Demo.world !! "HOME" = environ Faulty.world_bad_backend !! "HOME" /\
  value (script (Faulty.libraries (argv Demo.world) (environ Demo.world)) Demo.world) <>
  value (script (Faulty.libraries (argv Faulty.world_bad_backend)
                                  (environ Faulty.world_bad_backend))
                Faulty.world_bad_backend).
Proof.
  split; [repeat split|]. split; [vm_compute; reflexivity|].
  vm_compute. discriminate.
Qed.

(** C8: no run calls [astra.projector.delete], every run creates at most
    one projector, and a run that ends has created exactly one: its handle
    is the manager's next one, it is still registered when the script ends,
    and it is gone once the process has exited. *)
Theorem projector_created_once_never_released lib w :
  projector_deletions (events (script lib w)) = [] /\
  (length (projector_creations (events (script lib w))) <= 1)%nat /\
  forall g, value (script lib w) = Ok g ->
    projector_creations (events (script lib w)) = [("cuda", g_proj_geom g, g_vol_geom g)] /\
    g_proj_id g = astra_next_id w /\
    astra_projectors (final (script lib w)) =
      <[g_proj_id g := Projector "cuda" (g_proj_geom g) (g_vol_geom g)]> (astra_projectors w) /\
    astra_projectors (final (script lib w)) !! g_proj_id g =
      Some (Projector "cuda" (g_proj_geom g) (g_vol_geom g)) /\
    astra_projectors (process_exit (final (script lib w))) !! g_proj_id g = None.
Proof.
  run_script lib w o; trace_norm.
  all: split; [reflexivity|]; split; [lia|]; intros g Hg; simplify_eq.
  cbn. rewrite lookup_insert_eq. repeat split; reflexivity.
Qed.

Lemma projector_created_once_never_released_witness :
  exists g, value (script Demo.lib Demo.world) = Ok g /\
            g_proj_id g = 1%nat /\
            projector_creations (events (script Demo.lib Demo.world)) =
              [("cuda", g_proj_geom g, g_vol_geom g)].
Proof.
  eexists. split; [vm_compute; reflexivity|].
  destruct (projector_created_once_never_released Demo.lib Demo.world) as (_ & _ & H).
  edestruct H as (Hc & Hid & _).
  - vm_compute. reflexivity.
  - split; [exact Hid | exact Hc].
Defined.



(** C10, amended: the rescaling multiplies recsirt, the estimated gray
    values and the segmented reconstruction by the sf the normalization
    divided by; when sf is not zero the rescaled recsirt is the SIRT output
    again, as is every array divided and multiplied by sf; and when sf is
    positive the maximum of the normalized recsirt is 1. *)
Theorem rescaling_undoes_normalization lib w g :
  value (script lib w) = Ok g ->
  exists d n pg vg ty recsirt0 gv0 K0 W p r Segrec0 rec,
    In (c_SIRT_recon d n pg vg ty) (calls (events (script lib w))) /\
    sirt_recon lib d n pg vg ty = Ok recsirt0 /\
    np_max recsirt0 = Ok (g_sf g) /\
    joint_recsirt (events (script lib w)) = [np_div_scalar recsirt0 (g_sf g)] /\
    g_recsirt g = np_mul_scalar (np_div_scalar recsirt0 (g_sf g)) (g_sf g) /\
    tvr_param2gv lib (g_param_esti g) = Ok (gv0, K0) /\
    g_gv g = np_mul_scalar gv0 (g_sf g) /\
    tvr_recon lib W p r (g_param_esti g) 10 50 = Ok (Segrec0, rec) /\
    g_Segrec g = np_mul_scalar Segrec0 (g_sf g) /\
    (~ (g_sf g == 0)%Q ->
       arr_eq (g_recsirt g) recsirt0 /\
       forall a, arr_eq (np_mul_scalar (np_div_scalar a (g_sf g)) (g_sf g)) a) /\
    ((0 < g_sf g)%Q ->
       exists m, np_max (np_div_scalar recsirt0 (g_sf g)) = Ok m /\ (m == 1)%Q).
Proof.
  run_script lib w o; trace_norm; intros Hg; simplify_eq.
  cbn [g_sf g_recsirt g_param_esti g_gv g_Segrec].
  do 13 eexists.
  split; [find_call|]. split; [eassumption|]. split; [eassumption|].
  split; [reflexivity|]. split; [reflexivity|]. split; [eassumption|].
  split; [reflexivity|]. split; [eassumption|]. split; [reflexivity|].
  split.
  - intros Hsf. split; [|intros a]; apply div_mul_roundtrip; exact Hsf.
  - intros Hpos.
    match goal with H : np_max ?a = Ok ?sf |- _ =>
      destruct (np_max_div_defined a sf sf H) as [m Hm]; exists m;
      split; [exact Hm | exact (max_of_normalized a sf m H Hpos Hm)]
    end.
Qed.

Lemma rescaling_undoes_normalization_witness :
  exists g, value (script Demo.lib Demo.world) = Ok g /\
            arr_eq (g_recsirt g) (Demo.const_volume (VolGeom 2 2) 2).
Proof.
  eexists. split; [vm_compute; reflexivity|].
  edestruct (rescaling_undoes_normalization Demo.lib Demo.world)
    as (d & n & pg & vg & ty & recsirt0 & gv0 & K0 & W & p & r & Segrec0 & rec &
        _ & _ & _ & _ & Hrec & _).
  - vm_compute. reflexivity.
  - cbn [g_recsirt g_sf] in Hrec |- *. split; [reflexivity|].
    vm_compute. repeat constructor.
Defined.

(** C10 as the specification has it fails on a reconstruction that is
    negative everywhere: for the values -1, -2, -3, -4 the factor sf is -1,
    not zero, and the normalized array 1, 2, 3, 4 has maximum 4. *)
Lemma negative_reconstruction_breaks_unit_max : ~ rescaling_claim.
Proof.
  intros H.
  assert (Hrun : exists g, value (script Demo.lib_negative Demo.world) = Ok g /\
                           g_sf g = (-1 # 1)%Q).
  { vm_compute. eexists. split; reflexivity. }
  destruct Hrun as (g & Hg & Hsf).
  destruct (H _ _ g Hg) as [_ Hmax].
  - rewrite Hsf. discriminate.
  - destruct (Hmax (NdArray [2; 2]%nat [1; 2; 3; 4]%Q)) as (m & Hm & Hone).
    + vm_compute. left. reflexivity.
    + vm_compute in Hm. injection Hm as <-. discriminate Hone.
Qed.

(** ** Further properties of the script *)

Lemma unpack_shape2_raise (a : ndarray) (e : exn) :
  unpack_shape2 a = Raise e -> length (shape a) <> 2%nat /\ exists msg, e = ValueError msg.
Proof.
  unfold unpack_shape2. destruct (shape a) as [|? [|? [|? ?]]]; intros H; simplify_eq;
    (split; [cbn; lia | eexists; reflexivity]).
Qed.

Lemma ascii_list_app (a b : string) :
  String.list_ascii_of_string (a +:+ b) = String.list_ascii_of_string a ++ String.list_ascii_of_string b.
Proof. induction a as [|c a IH]; simpl; [reflexivity | f_equal; exact IH]. Qed.

(** The file the script reads is not the file it writes. *)
Lemma input_is_not_output (home : string) (w : World) : input_path home <> output_path w.
Proof.
  unfold input_path, output_path, resolve, joinpath. cbn [fold_left]. intros H.
  apply (f_equal (fun s => rev (String.list_ascii_of_string s))) in H.
  rewrite !ascii_list_app, !rev_app_distr in H.
  cbn in H. discriminate H.
Qed.

(** X1: when the file the script loads does not exist, the run ends in
    FileNotFoundError for that path inside the first block, np.load is the
    last call made, and the world is left exactly as it was. *)
Theorem missing_input_file_raises lib w path :
  In (c_np_load path) (calls (events (script lib w))) ->
  fs w !! path = None ->
  value (script lib w) = Raise (FileNotFoundError path) /\
  final (script lib w) = w /\
  markers (events (script lib w)) = [Begin ReadData] /\
  last (calls (events (script lib w))) = Some (c_np_load path).
Proof.
  run_script lib w o; intros Hc; pick_call Hc; intros Hf.
  all: try (match goal with H : ?m !! ?p = Some _ |- _ =>
              change (m !! p = None) in Hf; congruence end).
  trace_norm. repeat split.
Qed.

Lemma missing_input_file_raises_witness :
  value (script Demo.lib (Demo.world_with "/home/v" Demo.sinogram)) =
    Raise (FileNotFoundError (input_path "/home/v")) /\
  final (script Demo.lib (Demo.world_with "/home/v" Demo.sinogram)) =
    Demo.world_with "/home/v" Demo.sinogram.
Proof.
  destruct (missing_input_file_raises Demo.lib (Demo.world_with "/home/v" Demo.sinogram)
              (input_path "/home/v")) as (Hv & Hw & _).
  - vm_compute. tauto.
  - vm_compute. reflexivity.
  - split; [exact Hv | exact Hw].
Defined.

(** X2: when the loaded array does not have exactly two dimensions, the
    unpacking of its shape raises ValueError inside the first block, before
    anything is printed or configured, and the world is left as it was. *)
Theorem wrong_dimension_raises lib w path data :
  In (c_np_load path) (calls (events (script lib w))) ->
  fs w !! path = Some data ->
  length (shape data) <> 2%nat ->
  (exists msg, value (script lib w) = Raise (ValueError msg)) /\
  final (script lib w) = w /\
  markers (events (script lib w)) = [Begin ReadData] /\
  last (calls (events (script lib w))) = Some (c_np_load path).
Proof.
  run_script lib w o; intros Hc; pick_call Hc; intros Hf Hdim.
  all: same_lookup Hf; simplify_eq.
  all: try (match goal with H : unpack_shape2 _ = Ok _ |- _ =>
              apply unpack_shape2_ok in H; rewrite H in Hdim; contradiction end).
  match goal with H : unpack_shape2 _ = Raise _ |- _ =>
    apply unpack_shape2_raise in H as [_ [msg ->]] end.
  trace_norm. repeat split. exists msg. reflexivity.
Qed.

Lemma wrong_dimension_raises_witness :
  exists msg, value (script Demo.lib (Demo.world_with "/home/u" Faulty.cube)) =
                Raise (ValueError msg).
Proof.
  apply (wrong_dimension_raises Demo.lib (Demo.world_with "/home/u" Faulty.cube)
           (input_path "/home/u") Faulty.cube).
  - vm_compute. tauto.
  - vm_compute. reflexivity.
  - vm_compute. lia.
Defined.

(** X3: no run, complete or not, changes the file the script reads, nor
    any file other than the one it writes. *)
Theorem input_file_is_never_overwritten lib w home :
  fs (final (script lib w)) !! input_path home = fs w !! input_path home /\
  forall path, path <> output_path w ->
               fs (final (script lib w)) !! path = fs w !! path.
Proof.
  assert (H : forall path, path <> output_path w ->
                           fs (final (script lib w)) !! path = fs w !! path).
  { run_script lib w o; cbn [final fs]; intros path Hp; try reflexivity.
    apply lookup_insert_ne. intros E. apply Hp. rewrite <- E. reflexivity. }
  split; [|exact H]. apply H. apply input_is_not_output.
Qed.

(** X4: the script never touches a handle of ASTRA's manager other than
    the next one; and a run that has left the geometry block has its
    projector registered under that handle when it ends, whether it ends
    normally or in an exception: nothing cleans up after a failure. *)
Theorem projector_survives_failure lib w :
  (forall id, id <> astra_next_id w ->
     astra_projectors (final (script lib w)) !! id = astra_projectors w !! id) /\
  (In (End Geometry) (events (script lib w)) ->
   exists pg n,
     In (c_create_projector "cuda" pg (VolGeom n n)) (calls (events (script lib w))) /\
     astra_projectors (final (script lib w)) !! astra_next_id w =
       Some (Projector "cuda" pg (VolGeom n n)) /\
     astra_next_id (final (script lib w)) = S (astra_next_id w)).
Proof.
  run_script lib w o; trace_norm; cbn [In]; split.
  all: try (intros id Hid; first [reflexivity | apply lookup_insert_ne; congruence]).
  all: intros Hend; try (exfalso; intuition discriminate).
  all: do 2 eexists; split; [repeat first [left; reflexivity | right]|].
  all: split; [apply lookup_insert_eq | reflexivity].
Qed.

Lemma projector_survives_failure_witness :
  value (script Faulty.lib_no_SIRT Demo.world) = Raise (ModuleNotFoundError "SIRT") /\
  exists pg n,
    astra_projectors (final (script Faulty.lib_no_SIRT Demo.world)) !! 1%nat =
      Some (Projector "cuda" pg (VolGeom n n)).
Proof.
  split; [vm_compute; reflexivity|].
  destruct (projector_survives_failure Faulty.lib_no_SIRT Demo.world) as [_ H].
  destruct H as (pg & n & _ & Hp & _).
  - vm_compute. tauto.
  - exists pg, n. exact Hp.
Defined.

(** X5: the sinogram handed to SIRT fits the projection geometry handed
    with it: as many rows as projection angles, as many columns as detector
    elements; the geometry is parallel-beam with detector width 1, the
    volume is the square of the detector count, SIRT runs 50 iterations on
    cuda, and the projector was created from the same two geometries. *)
Theorem geometry_matches_sinogram lib w d n pg vg ty :
  In (c_SIRT_recon d n pg vg ty) (calls (events (script lib w))) ->
  shape d = [length (flat (ProjectionAngles pg)); DetectorCount pg] /\
  pg_type pg = "parallel" /\
  DetectorWidth pg = 1%Q /\
  vg = VolGeom (DetectorCount pg) (DetectorCount pg) /\
  n = 50%nat /\ ty = "cuda" /\
  In (c_create_projector "cuda" pg vg) (calls (events (script lib w))).
Proof.
  run_script lib w o; intros Hc; pick_call Hc.
  all: match goal with H : unpack_shape2 _ = Ok _ |- _ => apply unpack_shape2_ok in H end.
  all: cbn [ProjectionAngles DetectorCount pg_type DetectorWidth np_sub_scalar np_mul_scalar
            shape flat].
  all: rewrite length_map, linspace_length.
  all: split; [assumption|]; do 5 (split; [reflexivity|]); find_call.
Qed.

Lemma geometry_matches_sinogram_witness :
  shape Demo.corrected = [3; 2]%nat.
Proof.
  destruct (geometry_matches_sinogram Demo.lib Demo.world Demo.corrected 50
              Demo.sinogram_proj_geom (VolGeom 2 2) "cuda") as (Hs & _).
  - vm_compute. tauto.
  - exact Hs.
Defined.

(** X6: the final reconstruction runs with the parameters that
    [TVRDART.joint] returned, on the same operator, data vector, initial
    reconstruction and weight 10 as the joint estimation, for 50 iterations;
    the operator was built by [astra.OpTomo] on the handle of the projector
    of this run and has the volume geometry handed to SIRT, and the joint
    estimation started from gv2param of the gray values 0, 1 and the
    sharpness 4. *)
Theorem reconstruction_uses_estimated_parameters lib w W p r param lamb Niter :
  In (c_recon W p r param lamb Niter) (calls (events (script lib w))) ->
  exists param0 Segrec0 d n pg vg ty,
    tvr_gv2param lib (np_linspace 0 1 2) (np_scalar_mul 4 (np_ones 1)) = Ok param0 /\
    In (c_joint W p r param0 lamb) (calls (events (script lib w))) /\
    tvr_joint lib W p r param0 lamb = Ok (Segrec0, param) /\
    lamb = 10%Z /\ Niter = 50%nat /\
    In (c_SIRT_recon d n pg vg ty) (calls (events (script lib w))) /\
    In (c_OpTomo (astra_next_id w)) (calls (events (script lib w))) /\
    op_proj_id W = astra_next_id w /\
    op_vol_geom W = vg.
Proof.
  run_script lib w o; intros Hc; pick_call Hc.
  all: do 7 eexists; split; [eassumption|]; split; [find_call|]; split; [eassumption|].
  all: do 2 (split; [reflexivity|]); split; [find_call|]; split; [find_call|].
  all: split; reflexivity.
Qed.

Lemma reconstruction_uses_estimated_parameters_witness :
  exists W p r param0 Segrec0,
    tvr_joint Demo.lib W p r param0 10 = Ok (Segrec0, NdArray [3%nat] [0; 1; 4]%Q).
Proof.
  assert (Hc : exists W p r,
             In (c_recon W p r (NdArray [3%nat] [0; 1; 4]%Q) 10 50)
                (calls (events (script Demo.lib Demo.world)))).
  { vm_compute. do 3 eexists. tauto. }
  destruct Hc as (W & p & r & Hc).
  destruct (reconstruction_uses_estimated_parameters Demo.lib Demo.world _ _ _ _ _ _ Hc)
    as (param0 & Segrec0 & _ & _ & _ & _ & _ & _ & _ & Hj & _).
  exists W, p, r, param0, Segrec0. exact Hj.
Defined.

(** X7: in a run that ends, the plotting calls are gray, then figure 1
    with the rescaled recsirt under the title SIRT, then figure 2 with the
    rescaled Segrec under the title TVR-DART, then show; the image of
    figure 2 is the array that is saved. *)
Theorem plots_show_what_is_saved lib w g :
  value (script lib w) = Ok g ->
  plot_calls (events (script lib w)) =
    [pl_gray;
     pl_figure 1; pl_imshow (g_recsirt g); pl_colorbar; pl_title "SIRT";
     pl_figure 2; pl_imshow (g_Segrec g); pl_colorbar; pl_title "TVR-DART";
     pl_show] /\
  saves (events (script lib w)) = [("TVRDART2Dreconstruction.npy", g_Segrec g)].
Proof.
  run_script lib w o; trace_norm; intros Hg; simplify_eq.
  split; reflexivity.
Qed.

Lemma plots_show_what_is_saved_witness :
  exists g, value (script Demo.lib Demo.world) = Ok g /\
            In (pl_imshow (g_Segrec g)) (plot_calls (events (script Demo.lib Demo.world))).
Proof.
  eexists. split; [vm_compute; reflexivity|].
  edestruct (plots_show_what_is_saved Demo.lib Demo.world) as [Hp _].
  - vm_compute. reflexivity.
  - rewrite Hp. cbn [In]. tauto.
Defined.

(** X8: when a plotting call of the run raises, that exception is the
    outcome of the run: the final reconstruction has been computed, np.save
    is never called, and no file is written. *)
Theorem failed_plot_loses_result lib w pc e :
  In pc (plot_calls (events (script lib w))) ->
  pylab_call lib pc = Some e ->
  value (script lib w) = Raise e /\
  saves (events (script lib w)) = [] /\
  fs (final (script lib w)) = fs w /\
  exists W p r param Segrec rec,
    In (c_recon W p r param 10 50) (calls (events (script lib w))) /\
    tvr_recon lib W p r param 10 50 = Ok (Segrec, rec).
Proof.
  run_script lib w o; trace_norm; cbn [plot_calls List.flat_map app In]; intros Hc.
  all: repeat (destruct Hc as [Hc|Hc]; [subst pc|]); try contradiction.
  all: match goal with H : pylab_call _ ?c = _ |- pylab_call _ ?c = _ -> _ => rewrite H end.
  all: intros Hp; simplify_eq.
  all: split; [reflexivity|]; split; [reflexivity|]; split; [reflexivity|].
  all: do 6 eexists; split; [cbn [In]; repeat first [left; reflexivity | right] | eassumption].
Qed.

Lemma failed_plot_loses_result_witness :
  value (script Faulty.lib_no_display Demo.world) = Raise (LibraryError "pylab" "no display") /\
  fs (final (script Faulty.lib_no_display Demo.world)) = fs Demo.world.
Proof.
  destruct (failed_plot_loses_result Faulty.lib_no_display Demo.world pl_show
              (LibraryError "pylab" "no display")) as (Hv & _ & Hf & _).
  - vm_compute. tauto.
  - reflexivity.
  - split; [exact Hv | exact Hf].
Defined.

(** X9: pylab is imported only after the rescaling: when the import
    fails in a run that got that far, the run ends in the import's
    exception with the final reconstruction computed, nothing plotted and
    nothing saved. *)
Theorem missing_pylab_loses_reconstruction lib w e :
  import_module lib "pylab" = Some e ->
  In (End Rescale) (events (script lib w)) ->
  value (script lib w) = Raise e /\
  plot_calls (events (script lib w)) = [] /\
  saves (events (script lib w)) = [] /\
  fs (final (script lib w)) = fs w /\
  exists W p r param Segrec rec,
    In (c_recon W p r param 10 50) (calls (events (script lib w))) /\
    tvr_recon lib W p r param 10 50 = Ok (Segrec, rec).
Proof.
  intros Hp. run_script lib w o; trace_norm; cbn [plot_calls List.flat_map app In].
  all: intros Hend; try (exfalso; intuition discriminate).
  all: simplify_eq.
  all: do 4 (split; [reflexivity|]).
  all: do 6 eexists; split; [cbn [In]; repeat first [left; reflexivity | right] | eassumption].
Qed.

Lemma missing_pylab_loses_reconstruction_witness :
  value (script Faulty.lib_no_pylab Demo.world) = Raise (ModuleNotFoundError "pylab") /\
  saves (events (script Faulty.lib_no_pylab Demo.world)) = [].
Proof.
  destruct (missing_pylab_loses_reconstruction Faulty.lib_no_pylab Demo.world
              (ModuleNotFoundError "pylab")) as (Hv & _ & Hs & _).
  - reflexivity.
  - vm_compute. tauto.
  - split; [exact Hv | exact Hs].
Defined.

(** X10: in a run that ends with sf not zero, p is the normalized data
    seen as one dimension: it has Nan * Ndetx elements, the elements of
    data, and they are those of the loaded sinogram, in order, plus 0.00893
    and divided by sf. *)
Theorem data_vector_is_flattened_normalized_sinogram lib w g :
  value (script lib w) = Ok g ->
  ~ (g_sf g == 0)%Q ->
  exists home loaded,
    home_dir w = Some home /\
    fs w !! input_path home = Some loaded /\
    shape (g_data g) = shape loaded /\
    shape (g_p g) = [(g_Nan g * g_Ndetx g)%nat] /\
    length (flat loaded) = (g_Nan g * g_Ndetx g)%nat /\
    flat (g_p g) = flat (g_data g) /\
    flat (g_p g) = map (fun x => (x + (893 # 100000)) / g_sf g)%Q (flat loaded).
Proof.
  run_script lib w o; trace_norm; intros Hg; simplify_eq.
  cbn [g_data g_p g_Nan g_Ndetx g_sf]. intros _.
  match goal with H : np_reshape1 _ _ = Ok _ |- _ =>
    pose proof H as Hsize; apply reshape_ok in H as [Hs Hf] end.
  unfold np_reshape1, np_size in Hsize. cbn [np_div_scalar np_sub_scalar flat] in Hsize.
  rewrite !length_map in Hsize.
  destruct (Nat.eqb_spec (length (flat n)) (n0 * n1)) as [Hlen|]; [|discriminate Hsize].
  unfold input_path. cbn [fs].
  do 2 eexists. split; [reflexivity|]. split; [eassumption|].
  split; [reflexivity|]. split; [exact Hs|]. split; [exact Hlen|].
  split; [exact Hf|]. rewrite Hf. cbn [np_div_scalar np_sub_scalar flat].
  rewrite map_map. reflexivity.
Qed.

Lemma data_vector_is_flattened_normalized_sinogram_witness :
  exists g, value (script Demo.lib Demo.world) = Ok g /\
            shape (g_p g) = [6%nat] /\
            flat (g_p g) = map (fun x => (x + (893 # 100000)) / (2 # 1))%Q (flat Demo.sinogram).
Proof.
  eexists. split; [vm_compute; reflexivity|].
  edestruct (data_vector_is_flattened_normalized_sinogram Demo.lib Demo.world)
    as (home & loaded & Hh & Hl & _ & Hs & _ & _ & Hf).
  - vm_compute. reflexivity.
  - discriminate.
  - injection Hh as <-. vm_compute in Hl. injection Hl as <-.
    split; [exact Hs | exact Hf].
Defined.

(** X11: when SIRT returns an array without elements, the maximum raises
    ValueError: the run ends there, inside the initial reconstruction
    block, TVRDART is never called and nothing is saved. *)
Theorem empty_reconstruction_raises lib w d n pg vg ty r :
  In (c_SIRT_recon d n pg vg ty) (calls (events (script lib w))) ->
  sirt_recon lib d n pg vg ty = Ok r ->
  flat r = [] ->
  value (script lib w) =
    Raise (ValueError "zero-size array to reduction operation maximum which has no identity") /\
  joint_recsirt (events (script lib w)) = [] /\
  ~ In (End InitialReconstruction) (events (script lib w)) /\
  fs (final (script lib w)) = fs w.
Proof.
  run_script lib w o; intros Hc; pick_call Hc.
  all: match goal with H : sirt_recon _ _ _ _ _ _ = _ |- _ => rewrite H end.
  all: intros Hsirt Hempty; simplify_eq.
  all: match goal with H : np_max _ = _ |- _ =>
         unfold np_max in H; rewrite Hempty in H; simplify_eq end.
  trace_norm. split; [reflexivity|]. split; [reflexivity|]. split; [|reflexivity].
  cbn [In]. intuition discriminate.
Qed.

Lemma empty_reconstruction_raises_witness :
  value (script Faulty.lib_empty Demo.world) =
    Raise (ValueError "zero-size array to reduction operation maximum which has no identity").
Proof.
  apply (empty_reconstruction_raises Faulty.lib_empty Demo.world Demo.corrected 50
           Demo.sinogram_proj_geom (VolGeom 2 2) "cuda" (NdArray [0; 0]%nat [])).
  - vm_compute. tauto.
  - reflexivity.
  - reflexivity.
Defined.
